(** * Line items of the invoice generator: totals, preparation and row layout

    A shallow embedding of [item.go] (package [generator]): the [Item]
    record, its [Prepare] step, the four totals and [appendColTo], together
    with models of the collaborators the file calls into: the decimal
    package [github.com/shopspring/decimal] and the page-drawing object
    ([doc.pdf]).

    Conventions.
    - A [decimal.Decimal] is the pair of an unbounded integer coefficient
      and a power-of-ten exponent, as in the Go package; the exponent, an
      [int32] there, is an unbounded [Z] here, so the package's panics on
      exponent overflow are outside the model.
    - A Go method with a pointer receiver that assigns to fields and returns
      an [error] becomes a function returning the receiver after the call
      together with [option error] ([None] is Go's [nil]).
    - Page coordinates, [float64] in the source, are exact integers in an
      arbitrarily fine unit. *)

From Stdlib Require Import ZArith QArith Qpower Qabs Lia Lqa List Bool.
From Stdlib Require Import Strings.String Strings.Ascii Numbers.DecimalString.
Import ListNotations.

Local Open Scope string_scope.
Local Open Scope Z_scope.

(** ** The decimal package *)

Module decimal.

(** [type Decimal struct { value *big.Int; exp int32 }]: the number
    [value * 10 ^ exp]. *)
Record Decimal : Type := mkDecimal { value : Z; exp : Z }.

(** Go's [error] values carry a message. *)
Definition error : Type := string.

(** The zero value [Decimal{}], returned next to every error. *)
Definition zeroValue : Decimal := mkDecimal 0 0.

Definition New (v e : Z) : Decimal := mkDecimal v e.

(** [DivisionPrecision], the number of decimal places [Div] keeps. *)
Definition DivisionPrecision : Z := 16.

Definition MaxInt32 : Z := 2147483647.
Definition MinInt32 : Z := -2147483648.

(** *** Parsing *)

Definition isDigit (c : ascii) : bool :=
  let n := nat_of_ascii c in (48 <=? n)%nat && (n <=? 57)%nat.

Definition digitVal (c : ascii) : Z := Z.of_nat (nat_of_ascii c) - 48.

(** Value of a run of decimal digits; [None] when a character is not a
    digit. *)
Fixpoint parseDigits (acc : Z) (s : string) : option Z :=
  match s with
  | EmptyString => Some acc
  | String c rest =>
      if isDigit c then parseDigits (10 * acc + digitVal c) rest else None
  end.

(** Syntax accepted by [strconv.ParseInt(s, 10, _)] and by
    [big.Int.SetString(s, 10)]: an optional sign and at least one digit. *)
Definition parseInteger (s : string) : option Z :=
  match s with
  | EmptyString => None
  | String c rest =>
      if Ascii.eqb c "-" then
        match rest with
        | EmptyString => None
        | _ => option_map Z.opp (parseDigits 0 rest)
        end
      else if Ascii.eqb c "+" then
        match rest with
        | EmptyString => None
        | _ => parseDigits 0 rest
        end
      else parseDigits 0 s
  end.

(** [strings.IndexAny(value, "Ee")] followed by the two slices around the
    index: the text before the first [E] or [e], and the text after it when
    there is one. *)
Fixpoint splitExponent (s : string) : string * option string :=
  match s with
  | EmptyString => (EmptyString, None)
  | String c rest =>
      if Ascii.eqb c "e" || Ascii.eqb c "E" then (EmptyString, Some rest)
      else let (m, e) := splitExponent rest in (String c m, e)
  end.

Fixpoint countDots (s : string) : nat :=
  match s with
  | EmptyString => O
  | String c rest =>
      if Ascii.eqb c "." then S (countDots rest) else countDots rest
  end.

(** The text around the first decimal point: [value[:pIndex]] and
    [value[pIndex+1:]]; no second component when there is no point. *)
Fixpoint splitPoint (s : string) : string * option string :=
  match s with
  | EmptyString => (EmptyString, None)
  | String c rest =>
      if Ascii.eqb c "." then (EmptyString, Some rest)
      else let (i, f) := splitPoint rest in (String c i, f)
  end.

(** [func NewFromString(value string) (Decimal, error)]. *)
Definition NewFromString (value : string) : Decimal * option error :=
  let originalInput := value in
  let (mant, expPart) := splitExponent value in
  let expo :=
    match expPart with
    | None => Some 0
    | Some e =>
        match parseInteger e with
        | Some n => if (MinInt32 <=? n) && (n <=? MaxInt32) then Some n else None
        | None => None
        end
    end in
  match expo with
  | None =>
      (zeroValue,
       Some ("can't convert " ++ originalInput ++ " to decimal: exponent is not numeric"))
  | Some e0 =>
      if (1 <? countDots mant)%nat then
        (zeroValue,
         Some ("can't convert " ++ mant ++ " to decimal: too many .s"))
      else
        let (intString, e1) :=
          match splitPoint mant with
          | (whole, None) => (whole, e0)
          | (whole, Some frac) =>
              (whole ++ frac, e0 - Z.of_nat (String.length frac))
          end in
        match parseInteger intString with
        | None =>
            (zeroValue, Some ("can't convert " ++ mant ++ " to decimal"))
        | Some dValue =>
            if (e1 <? MinInt32) || (MaxInt32 <? e1) then
              (zeroValue,
               Some ("can't convert " ++ originalInput
                       ++ " to decimal: fractional part too long"))
            else (mkDecimal dValue e1, None)
        end
  end.

(** [decimal.NewFromFloat] at an integer-valued [float64]. The source calls
    it on the constants [0] and [100] only, which [float64] holds exactly;
    the result is the decimal of the same value. *)
Definition NewFromFloat (f : Z) : Decimal := mkDecimal f 0.

(** *** Arithmetic *)

(** [func (d Decimal) rescale(exp int32) Decimal]: the same number at
    another exponent, truncated toward zero when the exponent grows. *)
Definition rescale (d : Decimal) (e : Z) : Decimal :=
  if exp d =? e then d
  else
    let diff := Z.abs (e - exp d) in
    let expScale := 10 ^ diff in
    if exp d <? e then mkDecimal (Z.quot (value d) expScale) e
    else mkDecimal (value d * expScale) e.

(** [func RescalePair(d1, d2 Decimal) (Decimal, Decimal)]: both numbers at
    the smaller of the two exponents. *)
Definition RescalePair (d1 d2 : Decimal) : Decimal * Decimal :=
  if exp d1 =? exp d2 then (d1, d2)
  else
    let baseScale := Z.min (exp d1) (exp d2) in
    if negb (baseScale =? exp d1) then (rescale d1 baseScale, d2)
    else (d1, rescale d2 baseScale).

(** [func (d Decimal) Add(d2 Decimal) Decimal]. *)
Definition Add (d d2 : Decimal) : Decimal :=
  let (rd, rd2) := RescalePair d d2 in
  mkDecimal (value rd + value rd2) (exp rd).

(** [func (d Decimal) Sub(d2 Decimal) Decimal]. *)
Definition Sub (d d2 : Decimal) : Decimal :=
  let (rd, rd2) := RescalePair d d2 in
  mkDecimal (value rd - value rd2) (exp rd).

(** [func (d Decimal) Mul(d2 Decimal) Decimal]. *)
Definition Mul (d d2 : Decimal) : Decimal :=
  mkDecimal (value d * value d2) (exp d + exp d2).

(** [func (d Decimal) Abs() Decimal]. *)
Definition Abs (d : Decimal) : Decimal := mkDecimal (Z.abs (value d)) (exp d).

(** [func (d Decimal) Cmp(d2 Decimal) int]. *)
Definition Cmp (d d2 : Decimal) : comparison :=
  let (rd, rd2) := RescalePair d d2 in
  Z.compare (value rd) (value rd2).

(** [func (d Decimal) QuoRem(d2 Decimal, precision int32) (Decimal, Decimal)]:
    the quotient truncated toward zero at [precision] decimal places, and
    the remainder. The package panics when [d2] is zero; item.go divides by
    the constant 100 only. *)
Definition QuoRem (d d2 : Decimal) (precision : Z) : Decimal * Decimal :=
  let scale := - precision in
  let e := exp d - exp d2 - scale in
  let '(aa, bb, scalerest) :=
    if e <? 0 then (value d, value d2 * 10 ^ (- e), exp d)
    else (value d * 10 ^ e, value d2, scale + exp d2) in
  (mkDecimal (Z.quot aa bb) scale, mkDecimal (Z.rem aa bb) scalerest).

(** [func (d Decimal) DivRound(d2 Decimal, precision int32) Decimal]: the
    quotient rounded half away from zero at [precision] decimal places. *)
Definition DivRound (d d2 : Decimal) (precision : Z) : Decimal :=
  let (q, r) := QuoRem d d2 precision in
  let rv2 := Z.abs (value r) * 2 in
  let r2 := mkDecimal rv2 (exp r + precision) in
  match Cmp r2 (Abs d2) with
  | Lt => q
  | _ =>
      if Z.sgn (value d) * Z.sgn (value d2) <? 0
      then Sub q (New 1 (- precision))
      else Add q (New 1 (- precision))
  end.

(** [func (d Decimal) Div(d2 Decimal) Decimal]. *)
Definition Div (d d2 : Decimal) : Decimal := DivRound d d2 DivisionPrecision.

(** *** Printing *)

Definition digitsOf (n : Z) : string :=
  NilEmpty.string_of_uint (N.to_uint (Z.to_N n)).

Fixpoint repeat0 (n : nat) : string :=
  match n with
  | O => EmptyString
  | S k => String "0" (repeat0 k)
  end.

(** The text without its trailing ['0'] characters. *)
Fixpoint trimTrailingZeros (s : string) : string :=
  match s with
  | EmptyString => EmptyString
  | String c rest =>
      match trimTrailingZeros rest with
      | EmptyString => if Ascii.eqb c "0" then EmptyString else String c EmptyString
      | t => String c t
      end
  end.

(** [func (d Decimal) String() string]: plain notation, trailing zeros of
    the fractional part removed. *)
Definition String (d : Decimal) : string :=
  if 0 <=? exp d then
    let v := value (rescale d 0) in
    if v <? 0 then "-" ++ digitsOf (Z.abs v) else digitsOf v
  else
    let str := digitsOf (Z.abs (value d)) in
    let len := String.length str in
    let dExpInt := Z.to_nat (- exp d) in
    let (intPart, fractionalPart) :=
      if (dExpInt <? len)%nat
      then (substring 0 (len - dExpInt) str,
            substring (len - dExpInt) dExpInt str)
      else ("0", repeat0 (dExpInt - len) ++ str) in
    let fractionalPart := trimTrailingZeros fractionalPart in
    let number :=
      if (0 <? String.length fractionalPart)%nat
      then intPart ++ "." ++ fractionalPart
      else intPart in
    if value d <? 0 then "-" ++ number else number.

(** *** Meaning *)

(** The rational number a decimal stands for. *)
Definition toQ (d : Decimal) : Q := inject_Z (value d) * Qpower (10 # 1) (exp d).

End decimal.

Import decimal.

(** ** Taxes and discounts *)

(** Modelled from the spec: the types [Tax] and [Discount], their [Prepare]
    methods, [getTax], [getDiscount] and the constants [TaxTypeAmount] and
    [DiscountTypeAmount] are declared outside the sources at hand. Following
    the data model, each is a kind ([Amount] or [Percent]) with a magnitude
    given as text, parsed by [Prepare] into a decimal shadow copy, which
    [getTax] and [getDiscount] return next to the kind. *)
Inductive Kind : Type := Amount | Percent.

Definition Kind_eqb (a b : Kind) : bool :=
  match a, b with
  | Amount, Amount | Percent, Percent => true
  | _, _ => false
  end.

Definition TaxTypeAmount : Kind := Amount.
Definition DiscountTypeAmount : Kind := Amount.

Record Tax : Type := mkTax {
  Tax_kind : Kind;
  Tax_magnitude : string;
  Tax__magnitude : Decimal
}.

Record Discount : Type := mkDiscount {
  Discount_kind : Kind;
  Discount_magnitude : string;
  Discount__magnitude : Decimal
}.

Definition Tax_Prepare (t : Tax) : Tax * option error :=
  let (magnitude, err) := NewFromString (Tax_magnitude t) in
  match err with
  | Some e => (t, Some e)
  | None => (mkTax (Tax_kind t) (Tax_magnitude t) magnitude, None)
  end.

Definition Discount_Prepare (d : Discount) : Discount * option error :=
  let (magnitude, err) := NewFromString (Discount_magnitude d) in
  match err with
  | Some e => (d, Some e)
  | None => (mkDiscount (Discount_kind d) (Discount_magnitude d) magnitude, None)
  end.

Definition getTax (t : Tax) : Kind * Decimal := (Tax_kind t, Tax__magnitude t).

Definition getDiscount (d : Discount) : Kind * Decimal :=
  (Discount_kind d, Discount__magnitude d).

(** ** Items *)

(** [type Item struct]. The pointers [Tax *Tax] and [Discount *Discount]
    are options: each item owns its tax and its discount. *)
Record Item : Type := mkItem {
  Name : string;
  Description : string;
  UnitCost : string;
  Quantity : string;
  ItemTax : option Tax;
  ItemDiscount : option Discount;
  Total : string;
  _unitCost : Decimal;
  _quantity : Decimal
}.

Definition set_unitCost (i : Item) (d : Decimal) : Item :=
  mkItem (Name i) (Description i) (UnitCost i) (Quantity i) (ItemTax i)
         (ItemDiscount i) (Total i) d (_quantity i).

Definition set_quantity (i : Item) (d : Decimal) : Item :=
  mkItem (Name i) (Description i) (UnitCost i) (Quantity i) (ItemTax i)
         (ItemDiscount i) (Total i) (_unitCost i) d.

Definition set_Tax (i : Item) (t : Tax) : Item :=
  mkItem (Name i) (Description i) (UnitCost i) (Quantity i) (Some t)
         (ItemDiscount i) (Total i) (_unitCost i) (_quantity i).

Definition set_Discount (i : Item) (d : Discount) : Item :=
  mkItem (Name i) (Description i) (UnitCost i) (Quantity i) (ItemTax i)
         (Some d) (Total i) (_unitCost i) (_quantity i).

(** [if err != nil { return err }] on the receiver [i] as it is at that
    point. *)
Notation "'return_if' err 'leaving' i ';;' k" :=
  (match err with
   | Some e => (i, Some e)
   | None => k
   end) (at level 10, err at level 9, i at level 9, k at level 200).

(** [func (i *Item) Prepare() error]. *)
Definition Prepare (i : Item) : Item * option error :=
  (* Unit cost *)
  let (unitCost, err) := NewFromString (UnitCost i) in
  return_if err leaving i ;;
  let i := set_unitCost i unitCost in
  (* Quantity *)
  let (quantity, err) := NewFromString (Quantity i) in
  return_if err leaving i ;;
  let i := set_quantity i quantity in
  (* Tax *)
  let (i, err) :=
    match ItemTax i with
    | Some t => let (t', err) := Tax_Prepare t in (set_Tax i t', err)
    | None => (i, None)
    end in
  return_if err leaving i ;;
  (* Discount *)
  let (i, err) :=
    match ItemDiscount i with
    | Some d => let (d', err) := Discount_Prepare d in (set_Discount i d', err)
    | None => (i, None)
    end in
  return_if err leaving i ;;
  (i, None).

(** The item after the tax stage of [Prepare], when that stage succeeds. *)
Definition withPreparedTax (i : Item) : Item :=
  match ItemTax i with
  | Some t => set_Tax i (fst (Tax_Prepare t))
  | None => i
  end.

(** The revision of [Prepare] in which the quantity is left as text: the
    three statements that parse it are commented out. *)
Module QuantityAsText.

Definition Prepare (i : Item) : Item * option error :=
  (* Unit cost *)
  let (unitCost, err) := NewFromString (UnitCost i) in
  return_if err leaving i ;;
  let i := set_unitCost i unitCost in
  (* Tax *)
  let (i, err) :=
    match ItemTax i with
    | Some t => let (t', err) := Tax_Prepare t in (set_Tax i t', err)
    | None => (i, None)
    end in
  return_if err leaving i ;;
  (* Discount *)
  let (i, err) :=
    match ItemDiscount i with
    | Some d => let (d', err) := Discount_Prepare d in (set_Discount i d', err)
    | None => (i, None)
    end in
  return_if err leaving i ;;
  (i, None).

End QuantityAsText.

(** [func (i *Item) TotalWithoutTaxAndWithoutDiscount() decimal.Decimal]. *)
Definition TotalWithoutTaxAndWithoutDiscount (i : Item) : Decimal :=
  let (quantity, _) := NewFromString (Quantity i) in
  let (price, _) := NewFromString (UnitCost i) in
  let total := Mul price quantity in
  total.

(** [func (i *Item) TotalWithoutTaxAndWithDiscount() decimal.Decimal]. *)
Definition TotalWithoutTaxAndWithDiscount (i : Item) : Decimal :=
  let total := TotalWithoutTaxAndWithoutDiscount i in
  (* Check discount *)
  match ItemDiscount i with
  | Some d =>
      let (dType, dNum) := getDiscount d in
      if Kind_eqb dType DiscountTypeAmount then
        Sub total dNum
      else
        (* Percent *)
        let toSub := Mul total (Div dNum (NewFromFloat 100)) in
        Sub total toSub
  | None => total
  end.

(** [func (i *Item) TaxWithTotalDiscounted() decimal.Decimal]. *)
Definition TaxWithTotalDiscounted (i : Item) : Decimal :=
  let result := NewFromFloat 0 in
  match ItemTax i with
  | None => result
  | Some t =>
      let totalHT := TotalWithoutTaxAndWithDiscount i in
      let (taxType, taxAmount) := getTax t in
      if Kind_eqb taxType TaxTypeAmount then
        taxAmount
      else
        let divider := NewFromFloat 100 in
        Mul totalHT (Div taxAmount divider)
  end.

(** [func (i *Item) TotalWithTaxAndDiscount() decimal.Decimal]. *)
Definition TotalWithTaxAndDiscount (i : Item) : Decimal :=
  Add (TotalWithoutTaxAndWithDiscount i) (TaxWithTotalDiscounted i).

(** ** The page and the document *)

(** Font family, style and size. *)
Definition FontSel : Type := (string * string * Z)%type.

Definition Color : Type := (Z * Z * Z)%type.

(** One drawing instruction received by the page: a wrapped block
    ([MultiCell]) or a single boxed cell ([CellFormat]), with the position
    of the pen, the width and height passed, the text and the style in
    force. For a wrapped block [height] is the height of one line. *)
Inductive CellKind : Type := Wrapped | Boxed.

Record Placement : Type := mkPlacement {
  kind : CellKind;
  at_x : Z;
  at_y : Z;
  width : Z;
  height : Z;
  text : string;
  borderStr : string;
  alignStr : string;
  fill : bool;
  font : FontSel;
  color : Color
}.

(** The page-drawing object behind [doc.pdf], as far as item.go drives it:
    the pen [(x, y)], the page size and margins, the font and text colour in
    force, the font metrics ([lines font w txt] is the number of lines [txt]
    takes when wrapped at width [w], at least one) and the instructions
    drawn so far. Automatic page breaks are not modelled. *)
Record Fpdf : Type := mkFpdf {
  x : Z;
  y : Z;
  w : Z;
  h : Z;
  lMargin : Z;
  rMargin : Z;
  fontSel : FontSel;
  textColor : Color;
  lines : FontSel -> Z -> string -> positive;
  drawn : list Placement
}.

Definition GetY (f : Fpdf) : Z := y f.

(** [SetX]: a negative abscissa counts from the right edge. *)
Definition SetX (f : Fpdf) (x' : Z) : Fpdf :=
  mkFpdf (if 0 <=? x' then x' else w f + x') (y f) (w f) (h f) (lMargin f)
         (rMargin f) (fontSel f) (textColor f) (lines f) (drawn f).

(** [SetY]: back to the left margin; a negative ordinate counts from the
    bottom edge. *)
Definition SetY (f : Fpdf) (y' : Z) : Fpdf :=
  mkFpdf (lMargin f) (if 0 <=? y' then y' else h f + y') (w f) (h f)
         (lMargin f) (rMargin f) (fontSel f) (textColor f) (lines f) (drawn f).

Definition SetFont (f : Fpdf) (familyStr styleStr : string) (size : Z) : Fpdf :=
  mkFpdf (x f) (y f) (w f) (h f) (lMargin f) (rMargin f)
         (familyStr, styleStr, size) (textColor f) (lines f) (drawn f).

Definition SetTextColor (f : Fpdf) (r g b : Z) : Fpdf :=
  mkFpdf (x f) (y f) (w f) (h f) (lMargin f) (rMargin f) (fontSel f)
         (r, g, b) (lines f) (drawn f).

(** A zero width stands for the room left up to the right margin. *)
Definition cellWidth (f : Fpdf) (w' : Z) : Z :=
  if w' =? 0 then w f - rMargin f - x f else w'.

(** [MultiCell(w, h, txtStr, borderStr, alignStr, fill)]: the text wrapped
    at width [w] in lines of height [h], drawn from the pen downwards; the
    pen ends at the left margin, below the last line. *)
Definition MultiCell (f : Fpdf) (w' h' : Z) (txtStr borderStr' alignStr' : string)
    (fill' : bool) : Fpdf :=
  let cw := cellWidth f w' in
  let n := Z.pos (lines f (fontSel f) cw txtStr) in
  mkFpdf (lMargin f) (y f + h' * n) (w f) (h f) (lMargin f) (rMargin f)
         (fontSel f) (textColor f) (lines f)
         (drawn f ++ [mkPlacement Wrapped (x f) (y f) cw h' txtStr borderStr'
                        alignStr' fill' (fontSel f) (textColor f)])%list.

(** [CellFormat(w, h, txtStr, borderStr, ln, alignStr, fill, link, linkStr)]:
    one cell of width [w] and height [h] at the pen; with [ln = 0] the pen
    moves to the right of the cell. *)
Definition CellFormat (f : Fpdf) (w' h' : Z) (txtStr borderStr' : string) (ln : Z)
    (alignStr' : string) (fill' : bool) (link : Z) (linkStr : string) : Fpdf :=
  let cw := cellWidth f w' in
  let (x', y') :=
    if 0 <? ln then ((if ln =? 1 then lMargin f else x f), y f + h')
    else (x f + cw, y f) in
  mkFpdf x' y' (w f) (h f) (lMargin f) (rMargin f) (fontSel f) (textColor f)
         (lines f)
         (drawn f ++ [mkPlacement Boxed (x f) (y f) cw h' txtStr borderStr'
                        alignStr' fill' (fontSel f) (textColor f)])%list.

(** The fields of [Options] that item.go reads; a colour is the triple of
    the components the source picks at indices 0, 1 and 2. *)
Record Options : Type := mkOptions {
  Font : string;
  GreyTextColor : Color;
  BaseTextColor : Color
}.

(** The money formatter behind [doc.ac]. *)
Record Accounting : Type := mkAccounting {
  FormatMoneyDecimal : Decimal -> string
}.

(** The fields and the method of [Document] that item.go uses;
    [encodeString] is the text-encoding adapter. *)
Record Document : Type := mkDocument {
  pdf : Fpdf;
  DocOptions : Options;
  ac : Accounting;
  encodeString : string -> string
}.

Definition with_pdf (doc : Document) (f : Fpdf) : Document :=
  mkDocument f (DocOptions doc) (ac doc) (encodeString doc).

(** The package constants item.go refers to: the column offsets and the
    two font sizes. Their declarations are outside the sources at hand, so
    the layout takes them as a parameter. *)
Record Constants : Type := mkConstants {
  ItemColNameOffset : Z;
  ItemColUnitPriceOffset : Z;
  ItemColQuantityOffset : Z;
  ItemColTotalHTOffset : Z;
  ItemColTaxOffset : Z;
  BaseTextFontSize : Z;
  SmallTextFontSize : Z
}.

(** The name of the item and, when there is one, its description below it:
    the statements of [appendColTo] between [baseY := doc.pdf.GetY()] and
    [colHeight := doc.pdf.GetY() - baseY]. *)
Definition nameBlock (K : Constants) (i : Item) (doc : Document) (p : Fpdf) : Fpdf :=
  (* Name *)
  let p := SetX p (ItemColNameOffset K) in
  let p := MultiCell p (ItemColUnitPriceOffset K - ItemColNameOffset K) 3
                     (encodeString doc (Name i)) "" "" false in
  (* Description *)
  if (0 <? String.length (Description i))%nat then
    let p := SetX p (ItemColNameOffset K) in
    let p := SetY p (GetY p + 1) in
    let p := SetFont p (Font (DocOptions doc)) "" (SmallTextFontSize K) in
    let p := SetTextColor p (fst (fst (GreyTextColor (DocOptions doc))))
                            (snd (fst (GreyTextColor (DocOptions doc))))
                            (snd (GreyTextColor (DocOptions doc))) in
    let p := MultiCell p (ItemColUnitPriceOffset K - ItemColNameOffset K) 3
                       (encodeString doc (Description i)) "" "" false in
    (* Reset font *)
    let p := SetFont p (Font (DocOptions doc)) "" (BaseTextFontSize K) in
    let p := SetTextColor p (fst (fst (BaseTextColor (DocOptions doc))))
                            (snd (fst (BaseTextColor (DocOptions doc))))
                            (snd (BaseTextColor (DocOptions doc))) in
    p
  else p.

(** [func (i *Item) appendColTo(options *Options, doc *Document)]. The
    document after the call; only [doc.pdf] changes. *)
Definition appendColTo (K : Constants) (i : Item) (options : Options)
    (doc : Document) : Document :=
  let p := pdf doc in
  (* Get base Y (top of line) *)
  let baseY := GetY p in
  (* Name, Description *)
  let p := nameBlock K i doc p in
  (* Compute line height *)
  let colHeight := GetY p - baseY in
  (* Unit price *)
  let p := SetY p baseY in
  let p := SetX p (ItemColUnitPriceOffset K) in
  let p := CellFormat p (ItemColQuantityOffset K - ItemColUnitPriceOffset K)
                      colHeight
                      (encodeString doc (FormatMoneyDecimal (ac doc) (_unitCost i)))
                      "0" 0 "" false 0 "" in
  (* Quantity *)
  let p := SetX p (ItemColQuantityOffset K) in
  let p := CellFormat p (ItemColTaxOffset K - ItemColQuantityOffset K)
                      colHeight
                      (encodeString doc (decimal.String (_quantity i)))
                      "0" 0 "" false 0 "" in
  (* Total HT *)
  let p := SetX p (ItemColTotalHTOffset K) in
  let p := CellFormat p (ItemColTaxOffset K - ItemColTotalHTOffset K)
                      colHeight
                      (encodeString doc (Total i))
                      "0" 0 "" false 0 "" in
  (* Set Y for next line *)
  let p := SetY p (baseY + colHeight) in
  with_pdf doc p.

(** The cells a call of [appendColTo] adds to the page. *)
Definition rowCells (K : Constants) (i : Item) (options : Options)
    (doc : Document) : list Placement :=
  skipn (List.length (drawn (pdf doc)))
        (drawn (pdf (appendColTo K i options doc))).

(** The single-cell placements among [l], in drawing order. *)
Definition boxed (l : list Placement) : list Placement :=
  filter (fun c => match kind c with Boxed => true | Wrapped => false end) l.

(** The wrapped blocks among [l], in drawing order. *)
Definition wrapped (l : list Placement) : list Placement :=
  filter (fun c => match kind c with Wrapped => true | Boxed => false end) l.

(** The revision of [appendColTo] that goes with [QuantityAsText.Prepare]:
    the unit price and quantity cells receive the texts [UnitCost] and
    [Quantity] of the item as they are; the statements before
    [colHeight := doc.pdf.GetY() - baseY] are those of [nameBlock]. *)
Module QuantityAsTextLayout.

Definition appendColTo (K : Constants) (i : Item) (options : Options)
    (doc : Document) : Document :=
  let p := pdf doc in
  (* Get base Y (top of line) *)
  let baseY := GetY p in
  (* Name, Description *)
  let p := nameBlock K i doc p in
  (* Compute line height *)
  let colHeight := GetY p - baseY in
  (* Unit price *)
  let p := SetY p baseY in
  let p := SetX p (ItemColUnitPriceOffset K) in
  let p := CellFormat p (ItemColQuantityOffset K - ItemColUnitPriceOffset K)
                      colHeight
                      (encodeString doc (UnitCost i))
                      "0" 0 "" false 0 "" in
  (* Quantity *)
  let p := SetX p (ItemColQuantityOffset K) in
  let p := CellFormat p (ItemColTaxOffset K - ItemColQuantityOffset K)
                      colHeight
                      (encodeString doc (Quantity i))
                      "0" 0 "" false 0 "" in
  (* Total HT *)
  let p := SetX p (ItemColTotalHTOffset K) in
  let p := CellFormat p (ItemColTaxOffset K - ItemColTotalHTOffset K)
                      colHeight
                      (encodeString doc (Total i))
                      "0" 0 "" false 0 "" in
  (* Set Y for next line *)
  let p := SetY p (baseY + colHeight) in
  with_pdf doc p.

Definition rowCells (K : Constants) (i : Item) (options : Options)
    (doc : Document) : list Placement :=
  skipn (List.length (drawn (pdf doc)))
        (drawn (pdf (appendColTo K i options doc))).

End QuantityAsTextLayout.

(** The item with another text in [Quantity]. *)
Definition with_Quantity (i : Item) (s : string) : Item :=
  mkItem (Name i) (Description i) (UnitCost i) s (ItemTax i)
         (ItemDiscount i) (Total i) (_unitCost i) (_quantity i).

(** Offsets that are not negative and column widths that are not zero: a
    negative offset counts from the right edge and a zero width stands for
    the room left on the line. *)
Definition usableColumns (K : Constants) : Prop :=
  0 <= ItemColNameOffset K /\ 0 <= ItemColUnitPriceOffset K /\
  0 <= ItemColQuantityOffset K /\ 0 <= ItemColTotalHTOffset K /\
  ItemColUnitPriceOffset K - ItemColNameOffset K <> 0 /\
  ItemColQuantityOffset K - ItemColUnitPriceOffset K <> 0 /\
  ItemColTaxOffset K - ItemColQuantityOffset K <> 0 /\
  ItemColTaxOffset K - ItemColTotalHTOffset K <> 0.

(** The number of lines the name takes in the name column, in the font in
    force when the row starts. *)
Definition nameLines (K : Constants) (i : Item) (doc : Document) : Z :=
  Z.pos (lines (pdf doc) (fontSel (pdf doc))
               (ItemColUnitPriceOffset K - ItemColNameOffset K)
               (encodeString doc (Name i))).

(** The number of lines the description takes in the name column, in the
    small font. *)
Definition descriptionLines (K : Constants) (i : Item) (doc : Document) : Z :=
  Z.pos (lines (pdf doc) (Font (DocOptions doc), "", SmallTextFontSize K)
               (ItemColUnitPriceOffset K - ItemColNameOffset K)
               (encodeString doc (Description i))).

(** Lines of height 3 for the name; a gap of 1 and lines of height 3 for the
    description when there is one. *)
Definition rowHeight (K : Constants) (i : Item) (doc : Document) : Z :=
  if (0 <? String.length (Description i))%nat
  then 3 * nameLines K i doc + 1 + 3 * descriptionLines K i doc
  else 3 * nameLines K i doc.

(** The base style of the document and the style of descriptions. *)
Definition baseStyle (K : Constants) (doc : Document) : FontSel * Color :=
  ((Font (DocOptions doc), "", BaseTextFontSize K), BaseTextColor (DocOptions doc)).

Definition smallStyle (K : Constants) (doc : Document) : FontSel * Color :=
  ((Font (DocOptions doc), "", SmallTextFontSize K), GreyTextColor (DocOptions doc)).

Definition style (c : Placement) : FontSel * Color := (font c, color c).

(** The position and size of a placement. *)
Definition box (c : Placement) : Z * Z * Z * Z :=
  (at_x c, at_y c, width c, height c).

(** ** Sample data *)

Definition newItem (name desc cost qty : string) (t : option Tax)
    (d : option Discount) (total : string) : Item :=
  mkItem name desc cost qty t d total zeroValue zeroValue.

(** The item as [Prepare] leaves it. *)
Definition prepared (i : Item) : Item := fst (Prepare i).

(** 10.00 x 3, no discount, no tax. *)
Definition plainItem : Item := newItem "Widget" "" "10.00" "3" None None "".

(** 100 x 1, 10 percent off, 20 percent tax. *)
Definition taxedItem : Item :=
  newItem "Service" "" "100" "1"
          (Some (mkTax Percent "20" zeroValue))
          (Some (mkDiscount Percent "10" zeroValue)) "".

(** 50 x 2, 15 off. *)
Definition flatDiscountItem : Item :=
  newItem "Part" "" "50" "2" None (Some (mkDiscount Amount "15" zeroValue)) "".

(** A quantity that is not a number. *)
Definition malformedItem : Item := newItem "Widget" "" "10.00" "abc" None None "".







(** Two items that differ in the [Total] text only. *)
Definition pricedItem (total : string) : Item :=
  newItem "Widget" "A small widget" "10.00" "3" None None total.

Definition sampleConstants : Constants := mkConstants 10 80 103 113 157 8 7.

(** An item with a description, as [Prepare] leaves it. *)
Definition describedItem : Item := prepared (pricedItem "30.00").

(** A page on which a line holds one character per unit of width. *)
Definition sampleLines (_ : FontSel) (w' : Z) (s : string) : positive :=
  Z.to_pos (1 + (Z.of_nat (String.length s) - 1) / Z.max 1 w').

Definition samplePdf : Fpdf :=
  mkFpdf 10 40 210 297 10 10 ("Helvetica", "", 8) (35, 35, 35) sampleLines [].

Definition sampleOptions : Options :=
  mkOptions "Helvetica" (82, 82, 82) (35, 35, 35).

Definition sampleDocument : Document :=
  mkDocument samplePdf sampleOptions (mkAccounting decimal.String) (fun s => s).

(** ** Facts about the decimal package *)

Section DecimalFacts.

Local Open Scope Q_scope.

Lemma ten_nonzero : ~ (10 # 1) == 0.
Proof. discriminate. Qed.

Lemma toQ_mk (v e : Z) : toQ (mkDecimal v e) = inject_Z v * (10 # 1) ^ e.
Proof. reflexivity. Qed.

(** Moving a decimal to a smaller exponent keeps its value. *)
Lemma toQ_rescale_le (d : Decimal) (e : Z) :
  (e <= exp d)%Z -> toQ (rescale d e) == toQ d.
Proof.
  intros Hle. unfold rescale.
  destruct (Z.eqb_spec (exp d) e) as [|Hne]; [reflexivity|].
  destruct (Z.ltb_spec (exp d) e) as [Hlt|_]; [lia|].
  rewrite toQ_mk. unfold toQ.
  replace (Z.abs (e - exp d)) with (exp d - e)%Z by lia.
  rewrite inject_Z_mult, Zpower_Qpower by lia.
  change (inject_Z 10) with (10 # 1).
  rewrite <- Qmult_assoc, <- Qpower_plus by exact ten_nonzero.
  replace (exp d - e + e)%Z with (exp d) by lia. reflexivity.
Qed.

Lemma exp_rescale (d : Decimal) (e : Z) : exp (rescale d e) = e.
Proof.
  unfold rescale.
  destruct (Z.eqb_spec (exp d) e); [assumption|].
  destruct (exp d <? e)%Z; reflexivity.
Qed.

(** [RescalePair] returns the two numbers unchanged in value, at one
    common exponent, the smaller of the two. *)
Lemma RescalePair_spec (d1 d2 : Decimal) :
  exp (fst (RescalePair d1 d2)) = Z.min (exp d1) (exp d2) /\
  exp (snd (RescalePair d1 d2)) = Z.min (exp d1) (exp d2) /\
  toQ (fst (RescalePair d1 d2)) == toQ d1 /\
  toQ (snd (RescalePair d1 d2)) == toQ d2.
Proof.
  unfold RescalePair.
  destruct (Z.eqb_spec (exp d1) (exp d2)) as [Heq|Hne]; cbn [fst snd].
  - repeat split; try reflexivity; lia.
  - destruct (Z.eqb_spec (Z.min (exp d1) (exp d2)) (exp d1)) as [Hm|Hm];
      cbn [negb fst snd]; rewrite ?exp_rescale.
    + repeat split; try reflexivity; try lia.
      apply toQ_rescale_le; lia.
    + repeat split; try reflexivity; try lia.
      apply toQ_rescale_le; lia.
Qed.

(** [Add] is exact. *)
Lemma toQ_Add (a b : Decimal) : toQ (Add a b) == toQ a + toQ b.
Proof.
  unfold Add. destruct (RescalePair_spec a b) as (E1 & E2 & Q1 & Q2).
  destruct (RescalePair a b) as [ra rb]; cbn [fst snd] in *.
  rewrite <- Q1, <- Q2. unfold toQ; cbn [value exp].
  rewrite E1, E2, inject_Z_plus. ring.
Qed.



Lemma toQ_NewFromFloat (n : Z) : toQ (NewFromFloat n) == inject_Z n.
Proof. unfold NewFromFloat, toQ; cbn [value exp]. simpl. ring. Qed.

Lemma toQ_zeroValue : toQ zeroValue == 0.
Proof. reflexivity. Qed.

(** A decimal with a zero coefficient is zero, whatever its exponent. *)
Lemma toQ_value_0 (d : Decimal) : value d = 0%Z -> toQ d == 0.
Proof. intros H. unfold toQ. rewrite H. ring. Qed.






End DecimalFacts.

(** ** The four totals *)

Section Totals.

Local Open Scope Q_scope.

(** Whenever [NewFromString] reports an error, the decimal next to it is
    the zero value. *)
Lemma NewFromString_error (s : string) (e : error) :
  snd (NewFromString s) = Some e -> fst (NewFromString s) = zeroValue.
Proof.
  unfold NewFromString.
  repeat match goal with
         | |- context [match ?t with _ => _ end] => destruct t
         end; cbn [fst snd]; intros H; try reflexivity; discriminate H.
Qed.







(** C6. [TotalWithTaxAndDiscount] is the decimal sum of
    [TotalWithoutTaxAndWithDiscount] and [TaxWithTotalDiscounted], and the
    sum is exact. *)
Theorem grand_total_is_sum (i : Item) :
  TotalWithTaxAndDiscount i
  = Add (TotalWithoutTaxAndWithDiscount i) (TaxWithTotalDiscounted i) /\
  toQ (TotalWithTaxAndDiscount i)
  == toQ (TotalWithoutTaxAndWithDiscount i) + toQ (TaxWithTotalDiscounted i).
Proof.
  unfold TotalWithTaxAndDiscount. split; [reflexivity | apply toQ_Add].
Qed.

(** C8. Without a discount the discounted subtotal is the subtotal itself;
    without a tax the tax amount is the decimal zero. *)
Theorem absent_adjustments (i : Item) :
  (ItemDiscount i = None ->
   TotalWithoutTaxAndWithDiscount i = TotalWithoutTaxAndWithoutDiscount i) /\
  (ItemTax i = None ->
   TaxWithTotalDiscounted i = NewFromFloat 0 /\
   toQ (TaxWithTotalDiscounted i) == 0).
Proof.
  split.
  - intros Hd. unfold TotalWithoutTaxAndWithDiscount. rewrite Hd. reflexivity.
  - intros Ht. unfold TaxWithTotalDiscounted. rewrite Ht.
    split; reflexivity.
Qed.

Lemma absent_adjustments_witness :
  TotalWithoutTaxAndWithDiscount (prepared plainItem)
  = TotalWithoutTaxAndWithoutDiscount (prepared plainItem) /\
  toQ (TaxWithTotalDiscounted (prepared plainItem)) == 0.
Proof.
  destruct (absent_adjustments (prepared plainItem)) as [Hd Ht].
  split; [apply Hd; reflexivity | apply Ht; reflexivity].
Defined.









End Totals.

(** ** Preparation *)

Section Preparation.

Local Open Scope Q_scope.

(** Projections of an item rebuilt by the setters. *)
Ltac item_simpl :=
  cbn [set_unitCost set_quantity set_Tax set_Discount Name Description
       UnitCost Quantity ItemTax ItemDiscount Total _unitCost _quantity
       fst snd] in *.

Lemma Prepare_unit_cost_fails (i : Item) (e : error) :
  snd (NewFromString (UnitCost i)) = Some e -> Prepare i = (i, Some e).
Proof.
  unfold Prepare. destruct (NewFromString (UnitCost i)) as [u eu].
  item_simpl. intros ->. reflexivity.
Qed.

Lemma Prepare_quantity_fails (i : Item) (u : Decimal) (e : error) :
  NewFromString (UnitCost i) = (u, None) ->
  snd (NewFromString (Quantity i)) = Some e ->
  Prepare i = (set_unitCost i u, Some e).
Proof.
  unfold Prepare. intros ->. item_simpl.
  destruct (NewFromString (Quantity i)) as [q eq].
  item_simpl. intros ->. reflexivity.
Qed.

Lemma Prepare_tax_fails (i : Item) (u q : Decimal) (t : Tax) (e : error) :
  NewFromString (UnitCost i) = (u, None) ->
  NewFromString (Quantity i) = (q, None) ->
  ItemTax i = Some t ->
  snd (Tax_Prepare t) = Some e ->
  Prepare i
  = (set_Tax (set_quantity (set_unitCost i u) q) (fst (Tax_Prepare t)), Some e).
Proof.
  unfold Prepare. intros ->. item_simpl. intros ->. item_simpl. intros ->.
  destruct (Tax_Prepare t) as [t' et]. item_simpl. intros ->. reflexivity.
Qed.

Lemma Prepare_discount_fails (i : Item) (u q : Decimal) (d : Discount) (e : error) :
  NewFromString (UnitCost i) = (u, None) ->
  NewFromString (Quantity i) = (q, None) ->
  (forall t, ItemTax i = Some t -> snd (Tax_Prepare t) = None) ->
  ItemDiscount i = Some d ->
  snd (Discount_Prepare d) = Some e ->
  Prepare i
  = (set_Discount (withPreparedTax (set_quantity (set_unitCost i u) q))
                  (fst (Discount_Prepare d)), Some e).
Proof.
  unfold Prepare, withPreparedTax. intros ->. item_simpl.
  intros ->. item_simpl. intros Htax Hd He.
  destruct (ItemTax i) as [t|] eqn:Ht.
  - specialize (Htax t eq_refl).
    destruct (Tax_Prepare t) as [t' et]. item_simpl. subst et.
    item_simpl. rewrite Hd.
    destruct (Discount_Prepare d) as [d' ed]. item_simpl. subst ed.
    reflexivity.
  - item_simpl. rewrite Hd.
    destruct (Discount_Prepare d) as [d' ed]. item_simpl. subst ed.
    reflexivity.
Qed.

(** What a successful [Prepare] leaves in the item: the two parsed
    decimals, next to the texts it was given. *)
Lemma Prepare_success (i0 i : Item) :
  Prepare i0 = (i, None) ->
  exists u q,
    NewFromString (UnitCost i0) = (u, None) /\
    NewFromString (Quantity i0) = (q, None) /\
    _unitCost i = u /\ _quantity i = q /\
    Name i = Name i0 /\ Description i = Description i0 /\
    UnitCost i = UnitCost i0 /\ Quantity i = Quantity i0 /\
    Total i = Total i0.
Proof.
  unfold Prepare.
  destruct (NewFromString (UnitCost i0)) as [u [eu|]]; [discriminate|].
  item_simpl.
  destruct (NewFromString (Quantity i0)) as [q [eq|]]; [discriminate|].
  item_simpl.
  intros H. exists u, q. split; [reflexivity|]. split; [reflexivity|].
  destruct (ItemTax i0) as [t|].
  - destruct (Tax_Prepare t) as [t' [et|]]; [discriminate|].
    item_simpl.
    destruct (ItemDiscount i0) as [d|].
    + destruct (Discount_Prepare d) as [d' [ed|]]; [discriminate|].
      injection H as <-. repeat split.
    + injection H as <-. repeat split.
  - item_simpl.
    destruct (ItemDiscount i0) as [d|].
    + destruct (Discount_Prepare d) as [d' [ed|]]; [discriminate|].
      injection H as <-. repeat split.
    + injection H as <-. repeat split.
Qed.

(** In the revision that leaves the quantity as text, a quantity that is
    not a number goes through [Prepare] unnoticed. *)
Lemma QuantityAsText_accepts_malformed :
  QuantityAsText.Prepare malformedItem
  = (set_unitCost malformedItem (mkDecimal 1000 (-2)), None).
Proof. reflexivity. Qed.

(** C3, as the code has it. [Prepare] parses the unit cost, the quantity,
    the tax and the discount in that order and returns the error of the
    first that fails, leaving the fields after it untouched. Nothing is
    rolled back: the decimals stored for the fields before the failing one
    stay in the item, so the unit cost is cached when the quantity, the tax
    or the discount fails. *)
Theorem Prepare_stops_at_first_error (i : Item) :
  (forall e,
      snd (NewFromString (UnitCost i)) = Some e ->
      Prepare i = (i, Some e)) /\
  (forall u e,
      NewFromString (UnitCost i) = (u, None) ->
      snd (NewFromString (Quantity i)) = Some e ->
      Prepare i = (set_unitCost i u, Some e) /\
      _unitCost (fst (Prepare i)) = u /\
      _quantity (fst (Prepare i)) = _quantity i) /\
  (forall u q t e,
      NewFromString (UnitCost i) = (u, None) ->
      NewFromString (Quantity i) = (q, None) ->
      ItemTax i = Some t ->
      snd (Tax_Prepare t) = Some e ->
      Prepare i
      = (set_Tax (set_quantity (set_unitCost i u) q) (fst (Tax_Prepare t)),
         Some e) /\
      _unitCost (fst (Prepare i)) = u /\
      _quantity (fst (Prepare i)) = q /\
      ItemDiscount (fst (Prepare i)) = ItemDiscount i) /\
  (forall u q d e,
      NewFromString (UnitCost i) = (u, None) ->
      NewFromString (Quantity i) = (q, None) ->
      (forall t, ItemTax i = Some t -> snd (Tax_Prepare t) = None) ->
      ItemDiscount i = Some d ->
      snd (Discount_Prepare d) = Some e ->
      Prepare i
      = (set_Discount (withPreparedTax (set_quantity (set_unitCost i u) q))
                      (fst (Discount_Prepare d)), Some e) /\
      _unitCost (fst (Prepare i)) = u /\
      _quantity (fst (Prepare i)) = q).
Proof.
  split; [|split; [|split]].
  - intros e He. exact (Prepare_unit_cost_fails i e He).
  - intros u e Hu He. rewrite (Prepare_quantity_fails i u e Hu He).
    repeat split.
  - intros u q t e Hu Hq Ht He. rewrite (Prepare_tax_fails i u q t e Hu Hq Ht He).
    repeat split.
  - intros u q d e Hu Hq Htax Hd He.
    rewrite (Prepare_discount_fails i u q d e Hu Hq Htax Hd He).
    unfold withPreparedTax. item_simpl.
    destruct (ItemTax i); repeat split.
Qed.

Lemma Prepare_stops_at_first_error_witness :
  Prepare malformedItem
  = (set_unitCost malformedItem (mkDecimal 1000 (-2)),
     Some "can't convert abc to decimal") /\
  _unitCost (fst (Prepare malformedItem)) = mkDecimal 1000 (-2).
Proof.
  destruct (Prepare_stops_at_first_error malformedItem) as (_ & Hq & _).
  destruct (Hq (mkDecimal 1000 (-2)) "can't convert abc to decimal"
               eq_refl eq_refl) as (H1 & H2 & _).
  split; [exact H1 | exact H2].
Defined.

(** C3 as stated fails: on unit cost 10.00 and quantity abc, [Prepare]
    returns the error of the quantity and the item is left with the unit
    cost cached, which it did not hold before the call. *)
Lemma Prepare_partial_state_counterexample :
  snd (Prepare malformedItem) = Some "can't convert abc to decimal" /\
  _unitCost malformedItem = zeroValue /\
  _unitCost (fst (Prepare malformedItem)) = mkDecimal 1000 (-2) /\
  ~ (snd (Prepare malformedItem) <> None ->
     _unitCost (fst (Prepare malformedItem)) = _unitCost malformedItem).
Proof.
  repeat split. intros H.
  assert (Hne : snd (Prepare malformedItem) <> None) by discriminate.
  specialize (H Hne). discriminate H.
Qed.

(** C2, as the code has it. The four totals are plain functions of the
    item and return a decimal whether or not [Prepare] has run or has
    succeeded. When the unit cost or the quantity is not a valid decimal
    string, [Prepare] fails, yet the subtotal is zero: the parse error is
    dropped and the zero value multiplied in. With no discount the
    discounted subtotal is zero too, and with no tax either so are the tax
    amount and the grand total. *)
Theorem unprepared_totals_are_zero (i : Item) (e : error) :
  snd (NewFromString (UnitCost i)) = Some e \/
  snd (NewFromString (Quantity i)) = Some e ->
  snd (Prepare i) <> None /\
  toQ (TotalWithoutTaxAndWithoutDiscount i) == 0 /\
  (ItemDiscount i = None ->
   toQ (TotalWithoutTaxAndWithDiscount i) == 0 /\
   (ItemTax i = None ->
    toQ (TaxWithTotalDiscounted i) == 0 /\
    toQ (TotalWithTaxAndDiscount i) == 0)).
Proof.
  intros Hbad.
  assert (Hprep : snd (Prepare i) <> None).
  { destruct (NewFromString (UnitCost i)) as [u [eu|]] eqn:Hu.
    - rewrite (Prepare_unit_cost_fails i eu) by (rewrite Hu; reflexivity).
      discriminate.
    - destruct Hbad as [Hbad|Hbad]; [discriminate Hbad|].
      rewrite (Prepare_quantity_fails i u e Hu Hbad). discriminate. }
  assert (Hsub : toQ (TotalWithoutTaxAndWithoutDiscount i) == 0).
  { apply toQ_value_0. unfold TotalWithoutTaxAndWithoutDiscount.
    destruct Hbad as [Hbad|Hbad].
    - pose proof (NewFromString_error _ _ Hbad) as Hz.
      destruct (NewFromString (Quantity i)) as [q eq].
      destruct (NewFromString (UnitCost i)) as [u eu].
      cbn [fst] in Hz. subst u. cbn. reflexivity.
    - pose proof (NewFromString_error _ _ Hbad) as Hz.
      destruct (NewFromString (Quantity i)) as [q eq].
      destruct (NewFromString (UnitCost i)) as [u eu].
      cbn [fst] in Hz. subst q. cbn. apply Z.mul_0_r. }
  split; [exact Hprep|]. split; [exact Hsub|].
  intros Hd.
  assert (Hdisc : toQ (TotalWithoutTaxAndWithDiscount i) == 0).
  { unfold TotalWithoutTaxAndWithDiscount. rewrite Hd. exact Hsub. }
  split; [exact Hdisc|].
  intros Ht.
  assert (Htax : toQ (TaxWithTotalDiscounted i) == 0).
  { unfold TaxWithTotalDiscounted. rewrite Ht. reflexivity. }
  split; [exact Htax|].
  unfold TotalWithTaxAndDiscount. rewrite toQ_Add, Hdisc, Htax. reflexivity.
Qed.

Lemma unprepared_totals_are_zero_witness :
  snd (Prepare malformedItem) <> None /\
  toQ (TotalWithoutTaxAndWithoutDiscount malformedItem) == 0 /\
  toQ (TotalWithTaxAndDiscount malformedItem) == 0.
Proof.
  destruct (unprepared_totals_are_zero malformedItem
              "can't convert abc to decimal" (or_intror eq_refl))
    as (Hp & Hs & Hrest).
  destruct (Hrest eq_refl) as (_ & Hrest').
  destruct (Hrest' eq_refl) as (_ & Hg).
  split; [exact Hp|]. split; [exact Hs | exact Hg].
Defined.

(** C2 as stated fails: the item with quantity abc never completes
    [Prepare], and each of the four totals, called on it before or after
    the failed [Prepare], returns a decimal of value zero. *)
Lemma unprepared_totals_counterexample :
  snd (Prepare malformedItem) = Some "can't convert abc to decimal" /\
  TotalWithoutTaxAndWithoutDiscount malformedItem = mkDecimal 0 (-2) /\
  TotalWithoutTaxAndWithDiscount malformedItem = mkDecimal 0 (-2) /\
  TaxWithTotalDiscounted malformedItem = mkDecimal 0 0 /\
  TotalWithTaxAndDiscount malformedItem = mkDecimal 0 (-2) /\
  TotalWithoutTaxAndWithoutDiscount (prepared malformedItem) = mkDecimal 0 (-2) /\
  TotalWithoutTaxAndWithDiscount (prepared malformedItem) = mkDecimal 0 (-2) /\
  TaxWithTotalDiscounted (prepared malformedItem) = mkDecimal 0 0 /\
  TotalWithTaxAndDiscount (prepared malformedItem) = mkDecimal 0 (-2).
Proof. repeat split. Qed.

End Preparation.

(** ** Row layout *)

Section Layout.

Variables (K : Constants) (i : Item) (options : Options) (doc : Document).

Lemma drawn_SetX (p : Fpdf) (v : Z) : drawn (SetX p v) = drawn p.
Proof. reflexivity. Qed.

Lemma drawn_SetY (p : Fpdf) (v : Z) : drawn (SetY p v) = drawn p.
Proof. reflexivity. Qed.

Lemma drawn_CellFormat (p : Fpdf) (cw ch : Z) (txt b : string) (ln : Z)
    (a : string) (f : bool) (link : Z) (ls : string) :
  drawn (CellFormat p cw ch txt b ln a f link ls)
  = (drawn p ++ [mkPlacement Boxed (x p) (y p) (cellWidth p cw) ch txt b a f
                             (fontSel p) (textColor p)])%list.
Proof. unfold CellFormat. destruct (0 <? ln)%Z; reflexivity. Qed.

Lemma GetY_SetX (p : Fpdf) (v : Z) : GetY (SetX p v) = GetY p.
Proof. reflexivity. Qed.

Lemma GetY_SetY (p : Fpdf) (v : Z) : (0 <= v)%Z -> GetY (SetY p v) = v.
Proof.
  intros Hv. unfold GetY, SetY; cbn [y].
  destruct (Z.leb_spec 0 v); [reflexivity | lia].
Qed.

(** A cell followed by [ln = 0] leaves the pen on its line. *)
Lemma GetY_CellFormat_0 (p : Fpdf) (cw ch : Z) (txt b a : string) (f : bool)
    (link : Z) (ls : string) :
  GetY (CellFormat p cw ch txt b 0 a f link ls) = GetY p.
Proof. reflexivity. Qed.

Lemma GetY_MultiCell (p : Fpdf) (cw ch : Z) (txt b a : string) (f : bool) :
  GetY (MultiCell p cw ch txt b a f)
  = (GetY p + ch * Z.pos (lines p (fontSel p) (cellWidth p cw) txt))%Z.
Proof. reflexivity. Qed.

(** The name block draws wrapped text only, after what is on the page. *)
Lemma nameBlock_drawn (p : Fpdf) :
  exists l, drawn (nameBlock K i doc p) = (drawn p ++ l)%list /\ boxed l = [].
Proof.
  unfold nameBlock.
  destruct (0 <? String.length (Description i))%nat.
  - eexists [_; _]. cbn [drawn MultiCell SetX SetY SetFont SetTextColor].
    rewrite <- app_assoc. split; reflexivity.
  - eexists [_]. split; reflexivity.
Qed.

Lemma GetY_SetFont (p : Fpdf) (fa st : string) (sz : Z) :
  GetY (SetFont p fa st sz) = GetY p.
Proof. reflexivity. Qed.

Lemma GetY_SetTextColor (p : Fpdf) (r g b : Z) :
  GetY (SetTextColor p r g b) = GetY p.
Proof. reflexivity. Qed.

(** The name block moves the pen down, by one line of height 3 at least. *)
Lemma nameBlock_descends (p : Fpdf) :
  (0 <= GetY p)%Z -> (GetY p + 3 <= GetY (nameBlock K i doc p))%Z.
Proof.
  intros Hy. unfold nameBlock.
  set (p1 := MultiCell (SetX p (ItemColNameOffset K)) _ _ _ _ _ _).
  assert (H1 : (GetY p + 3 <= GetY p1)%Z).
  { unfold p1. rewrite GetY_MultiCell, GetY_SetX. lia. }
  destruct (0 <? String.length (Description i))%nat; [|exact H1].
  rewrite GetY_SetTextColor, GetY_SetFont, GetY_MultiCell,
    GetY_SetTextColor, GetY_SetFont.
  rewrite GetY_SetY by (rewrite GetY_SetX; lia).
  rewrite GetY_SetX. lia.
Qed.

(** The single cells of a row, in drawing order: unit price, quantity and
    total, each with the height that [appendColTo] computed and the text it
    was passed. *)
Lemma rowCells_boxed :
  map (fun c => (height c, text c)) (boxed (rowCells K i options doc))
  = [ (GetY (nameBlock K i doc (pdf doc)) - GetY (pdf doc),
       encodeString doc (FormatMoneyDecimal (ac doc) (_unitCost i)));
      (GetY (nameBlock K i doc (pdf doc)) - GetY (pdf doc),
       encodeString doc (decimal.String (_quantity i)));
      (GetY (nameBlock K i doc (pdf doc)) - GetY (pdf doc),
       encodeString doc (Total i)) ]%Z.
Proof.
  unfold rowCells, appendColTo. cbv zeta. cbn [pdf with_pdf].
  rewrite drawn_SetY.
  repeat (rewrite drawn_CellFormat, drawn_SetX). rewrite drawn_SetY.
  destruct (nameBlock_drawn (pdf doc)) as (l & Hl & Hb).
  rewrite Hl, <- !app_assoc, skipn_app, skipn_all, Nat.sub_diag.
  cbn [skipn app]. unfold boxed in *. rewrite filter_app, Hb. reflexivity.
Qed.

(** The ordinates at which the three single cells are drawn. *)
Lemma rowCells_boxed_at_y :
  (0 <= GetY (pdf doc))%Z ->
  map at_y (boxed (rowCells K i options doc))
  = [GetY (pdf doc); GetY (pdf doc); GetY (pdf doc)].
Proof.
  intros Hy. unfold rowCells, appendColTo. cbv zeta. cbn [pdf with_pdf].
  rewrite drawn_SetY.
  repeat (rewrite drawn_CellFormat, drawn_SetX). rewrite drawn_SetY.
  destruct (nameBlock_drawn (pdf doc)) as (l & Hl & Hb).
  rewrite Hl, <- !app_assoc, skipn_app, skipn_all, Nat.sub_diag.
  cbn [skipn app]. unfold boxed in *. rewrite filter_app, Hb.
  cbn [filter kind app map at_y].
  change (y (SetX ?q ?v)) with (GetY (SetX q v)).
  rewrite !GetY_SetX, !GetY_CellFormat_0, !GetY_SetX.
  rewrite !GetY_CellFormat_0, !GetY_SetX, (GetY_SetY _ _ Hy).
  reflexivity.
Qed.

(** C9. The unit-price, quantity and total cells of a row are drawn with
    one height: the distance the name block, description included, moved
    the pen down from the ordinate at which the row started. They are drawn
    from that starting ordinate, and when the row is done the pen is at the
    starting ordinate plus that height. The cursor is assumed on the page:
    [SetY] reads a negative ordinate as an offset from the bottom edge. *)
Theorem row_height_shared :
  (0 <= GetY (pdf doc))%Z ->
  let baseY := GetY (pdf doc) in
  let colHeight := (GetY (nameBlock K i doc (pdf doc)) - baseY)%Z in
  map height (boxed (rowCells K i options doc))
  = [colHeight; colHeight; colHeight] /\
  map at_y (boxed (rowCells K i options doc)) = [baseY; baseY; baseY] /\
  GetY (pdf (appendColTo K i options doc)) = (baseY + colHeight)%Z.
Proof.
  intros Hy baseY colHeight.
  split; [|split].
  - pose proof rowCells_boxed as H.
    apply (f_equal (map fst)) in H. rewrite map_map in H. exact H.
  - exact (rowCells_boxed_at_y Hy).
  - unfold appendColTo. cbv zeta. cbn [pdf with_pdf].
    apply GetY_SetY. pose proof (nameBlock_descends (pdf doc) Hy). lia.
Qed.

(** C4, as the code has it. For an item that [Prepare] accepted, the unit
    price cell shows the parsed unit cost through the money formatter, the
    quantity cell shows the parsed quantity as [String] prints it, and the
    total cell shows the [Total] text the caller put in the item, each
    through the text encoder. No total computed from the item reaches the
    page. *)
Theorem row_texts (i0 : Item) :
  Prepare i0 = (i, None) ->
  exists u q,
    NewFromString (UnitCost i0) = (u, None) /\
    NewFromString (Quantity i0) = (q, None) /\
    map text (boxed (rowCells K i options doc))
    = [ encodeString doc (FormatMoneyDecimal (ac doc) u);
        encodeString doc (decimal.String q);
        encodeString doc (Total i0) ].
Proof.
  intros Hp.
  destruct (Prepare_success i0 i Hp) as (u & q & Hu & Hq & Hcu & Hcq & _ & _ & _ & _ & Ht).
  exists u, q. split; [exact Hu|]. split; [exact Hq|].
  pose proof rowCells_boxed as H.
  apply (f_equal (map snd)) in H. rewrite map_map in H.
  cbn [map snd] in H. rewrite Hcu, Hcq, Ht in H. exact H.
Qed.

End Layout.

(** A row of one line on the sample page: the three cells are 3 high, drawn
    at ordinate 40, and the pen ends at 43. *)
Lemma row_height_shared_witness :
  map height (boxed (rowCells sampleConstants (prepared plainItem)
                              sampleOptions sampleDocument)) = [3; 3; 3] /\
  GetY (pdf (appendColTo sampleConstants (prepared plainItem)
                         sampleOptions sampleDocument)) = 43.
Proof.
  destruct (row_height_shared sampleConstants (prepared plainItem)
              sampleOptions sampleDocument) as (Hh & _ & Hy);
    [vm_compute; discriminate|].
  split; [exact Hh | exact Hy].
Defined.

Lemma row_texts_witness :
  map text (boxed (rowCells sampleConstants (prepared (pricedItem "999"))
                            sampleOptions sampleDocument))
  = ["10"; "3"; "999"].
Proof.
  destruct (row_texts sampleConstants (prepared (pricedItem "999"))
              sampleOptions sampleDocument (pricedItem "999") eq_refl)
    as (u & q & Hu & Hq & Ht).
  injection Hu as <-. injection Hq as <-. exact Ht.
Defined.

(** C4 as stated fails: two prepared items that differ in the [Total] text
    only have the same grand total and different texts in the total cell,
    so that text is no rendering of [TotalWithTaxAndDiscount]. *)
Lemma total_cell_counterexample :
  TotalWithTaxAndDiscount (prepared (pricedItem "999"))
  = TotalWithTaxAndDiscount (prepared (pricedItem "30.00")) /\
  option_map text
    (nth_error (boxed (rowCells sampleConstants (prepared (pricedItem "999"))
                                sampleOptions sampleDocument)) 2)
  = Some "999" /\
  option_map text
    (nth_error (boxed (rowCells sampleConstants (prepared (pricedItem "30.00"))
                                sampleOptions sampleDocument)) 2)
  = Some "30.00" /\
  ~ (exists render : Decimal -> string,
        forall it : Item,
          snd (Prepare it) = None ->
          option_map text
            (nth_error (boxed (rowCells sampleConstants (prepared it)
                                        sampleOptions sampleDocument)) 2)
          = Some (render (TotalWithTaxAndDiscount (prepared it)))).
Proof.
  split; [reflexivity|]. split; [reflexivity|]. split; [reflexivity|].
  intros [render H].
  pose proof (H (pricedItem "999") eq_refl) as Ha.
  pose proof (H (pricedItem "30.00") eq_refl) as Hb.
  vm_compute in Ha, Hb. rewrite <- Hb in Ha. discriminate Ha.
Qed.

(** ** More on preparation and the totals *)

(** Projections of an item rebuilt by the setters, and of pairs. *)
Ltac item_simpl :=
  cbn [set_unitCost set_quantity set_Tax set_Discount Name Description
       UnitCost Quantity ItemTax ItemDiscount Total _unitCost _quantity
       fst snd] in *.

Section PreparedTotals.

Local Open Scope Q_scope.

(** X1. [Prepare] writes the two decimal caches and the prepared tax and
    discount only: every text the caller put in the item is as it was,
    whether the call fails or not. *)
Theorem Prepare_keeps_texts (i : Item) :
  Name (fst (Prepare i)) = Name i /\
  Description (fst (Prepare i)) = Description i /\
  UnitCost (fst (Prepare i)) = UnitCost i /\
  Quantity (fst (Prepare i)) = Quantity i /\
  Total (fst (Prepare i)) = Total i.
Proof.
  unfold Prepare.
  destruct (NewFromString (UnitCost i)) as [u [eu|]]; [repeat split|].
  item_simpl.
  destruct (NewFromString (Quantity i)) as [q [eq|]]; [repeat split|].
  item_simpl.
  destruct (ItemTax i) as [t|]; [destruct (Tax_Prepare t) as [t' [et|]]|];
    item_simpl; try (repeat split; fail);
    (destruct (ItemDiscount i) as [d|];
     [destruct (Discount_Prepare d) as [d' [ed|]]|]);
    item_simpl; repeat split.
Qed.

(** X2. The subtotal reads the texts, not the caches: it is the same on the
    item before [Prepare] and on the item [Prepare] leaves, whatever the
    outcome of [Prepare]. *)
Theorem subtotal_ignores_caches (i : Item) :
  TotalWithoutTaxAndWithoutDiscount (fst (Prepare i))
  = TotalWithoutTaxAndWithoutDiscount i /\
  forall u q : Decimal,
    TotalWithoutTaxAndWithoutDiscount (set_quantity (set_unitCost i u) q)
    = TotalWithoutTaxAndWithoutDiscount i.
Proof.
  destruct (Prepare_keeps_texts i) as (_ & _ & Hu & Hq & _).
  split.
  - unfold TotalWithoutTaxAndWithoutDiscount. rewrite Hu, Hq. reflexivity.
  - intros u q. reflexivity.
Qed.


Lemma Tax_Prepare_again (t : Tax) :
  Tax_Prepare (fst (Tax_Prepare t)) = Tax_Prepare t.
Proof.
  unfold Tax_Prepare.
  destruct (NewFromString (Tax_magnitude t)) as [m [e|]] eqn:Hm;
    cbn [fst Tax_magnitude Tax_kind]; rewrite Hm; reflexivity.
Qed.

Lemma Discount_Prepare_again (d : Discount) :
  Discount_Prepare (fst (Discount_Prepare d)) = Discount_Prepare d.
Proof.
  unfold Discount_Prepare.
  destruct (NewFromString (Discount_magnitude d)) as [m [e|]] eqn:Hm;
    cbn [fst Discount_magnitude Discount_kind]; rewrite Hm; reflexivity.
Qed.

(** X4. [Prepare] can be called again: on the item a first call leaves, a
    second call returns the same result, error or not, and changes
    nothing. *)
Theorem Prepare_again (i : Item) :
  Prepare (fst (Prepare i)) = Prepare i.
Proof.
  destruct i as [n de uc qt tx dc tot cu cq].
  remember (Prepare (mkItem n de uc qt tx dc tot cu cq)) as r eqn:Hr.
  unfold Prepare in Hr. item_simpl.
  destruct (NewFromString uc) as [u [eu|]] eqn:Hu;
    [|item_simpl; destruct (NewFromString qt) as [q [eq|]] eqn:Hq;
      [|item_simpl;
        destruct tx as [t|];
        [pose proof (Tax_Prepare_again t) as Ht;
         destruct (Tax_Prepare t) as [t' [et|]]|];
        item_simpl;
        [| destruct dc as [d|];
           [pose proof (Discount_Prepare_again d) as Hd;
            destruct (Discount_Prepare d) as [d' [ed|]]|]
         | destruct dc as [d|];
           [pose proof (Discount_Prepare_again d) as Hd;
            destruct (Discount_Prepare d) as [d' [ed|]]|]]]];
    subst r; item_simpl; unfold Prepare; item_simpl;
    repeat match goal with
           | H : _ = (_, _) |- _ => rewrite H; item_simpl
           end;
    reflexivity.
Qed.

(** X6. The revision of [Prepare] that leaves the quantity as text neither
    reads nor writes the quantity: the cached quantity is as it was, and
    with another text in [Quantity] the outcome is the same, error
    included. *)
Theorem QuantityAsText_Prepare_blind_to_quantity (i : Item) :
  _quantity (fst (QuantityAsText.Prepare i)) = _quantity i /\
  forall s : string,
    QuantityAsText.Prepare (with_Quantity i s)
    = (with_Quantity (fst (QuantityAsText.Prepare i)) s,
       snd (QuantityAsText.Prepare i)).
Proof.
  destruct i as [n de uc qt tx dc tot cu cq].
  unfold QuantityAsText.Prepare, with_Quantity. item_simpl.
  destruct (NewFromString uc) as [u [eu|]].
  { split; [reflexivity | intros s; reflexivity]. }
  item_simpl.
  destruct tx as [t|]; [destruct (Tax_Prepare t) as [t' [et|]]|];
    item_simpl; try (split; [reflexivity | intros s; reflexivity]);
    (destruct dc as [d|];
     [destruct (Discount_Prepare d) as [d' [ed|]]|]);
    item_simpl; split; try reflexivity; intros s; reflexivity.
Qed.

(** X7. What the two revisions of [Prepare] have in common: an item that the
    revision parsing the quantity accepts is accepted by the other one too,
    with the same result but for the cached quantity, which stays as it
    was. *)
Theorem Prepare_refines_QuantityAsText (i i' : Item) :
  Prepare i = (i', None) ->
  QuantityAsText.Prepare i = (set_quantity i' (_quantity i), None).
Proof.
  destruct i as [n de uc qt tx dc tot cu cq].
  unfold Prepare, QuantityAsText.Prepare. item_simpl.
  destruct (NewFromString uc) as [u [eu|]]; [discriminate|]. item_simpl.
  destruct (NewFromString qt) as [q [eq|]]; [discriminate|]. item_simpl.
  destruct tx as [t|]; [destruct (Tax_Prepare t) as [t' [et|]]|];
    item_simpl; try discriminate;
    (destruct dc as [d|];
     [destruct (Discount_Prepare d) as [d' [ed|]]|]);
    item_simpl; try discriminate; intros H; injection H as <-; reflexivity.
Qed.











(** X5. [Prepare] succeeds exactly when the unit cost and the quantity parse
    and the tax and the discount, when attached, prepare without error. *)
Theorem Prepare_succeeds_iff (i : Item) :
  snd (Prepare i) = None <->
  snd (NewFromString (UnitCost i)) = None /\
  snd (NewFromString (Quantity i)) = None /\
  (forall t, ItemTax i = Some t -> snd (Tax_Prepare t) = None) /\
  (forall d, ItemDiscount i = Some d -> snd (Discount_Prepare d) = None).
Proof.
  destruct i as [n de uc qt tx dc tot cu cq].
  unfold Prepare. item_simpl.
  destruct (NewFromString uc) as [u [eu|]]; item_simpl;
    [split; [discriminate | intros (H & _); discriminate H]|].
  destruct (NewFromString qt) as [q [eq|]]; item_simpl;
    [split; [discriminate | intros (_ & H & _); discriminate H]|].
  destruct tx as [t|]; [destruct (Tax_Prepare t) as [t' [et|]] eqn:Ht|];
    item_simpl.
  - split; [discriminate|]. intros (_ & _ & H & _).
    specialize (H t eq_refl). rewrite Ht in H. discriminate H.
  - destruct dc as [d|]; [destruct (Discount_Prepare d) as [d' [ed|]] eqn:Hd|];
      item_simpl.
    + split; [discriminate|]. intros (_ & _ & _ & H).
      specialize (H d eq_refl). rewrite Hd in H. discriminate H.
    + split; [|reflexivity]. intros _. repeat split.
      * intros t0 H0. injection H0 as <-. rewrite Ht. reflexivity.
      * intros d0 H0. injection H0 as <-. rewrite Hd. reflexivity.
    + split; [|reflexivity]. intros _. repeat split.
      * intros t0 H0. injection H0 as <-. rewrite Ht. reflexivity.
      * intros d0 H0. discriminate H0.
  - destruct dc as [d|]; [destruct (Discount_Prepare d) as [d' [ed|]] eqn:Hd|];
      item_simpl.
    + split; [discriminate|]. intros (_ & _ & _ & H).
      specialize (H d eq_refl). rewrite Hd in H. discriminate H.
    + split; [|reflexivity]. intros _. repeat split.
      * intros t0 H0. discriminate H0.
      * intros d0 H0. injection H0 as <-. rewrite Hd. reflexivity.
    + split; [|reflexivity]. intros _. repeat split.
      * intros t0 H0. discriminate H0.
      * intros d0 H0. discriminate H0.
Qed.

End PreparedTotals.


Lemma Prepare_refines_QuantityAsText_witness :
  QuantityAsText.Prepare taxedItem
  = (set_quantity (prepared taxedItem) zeroValue, None).
Proof.
  exact (Prepare_refines_QuantityAsText taxedItem (prepared taxedItem) eq_refl).
Defined.





(** ** More on the row layout *)

Section RowGeometry.

Variables (K : Constants) (i : Item) (options : Options) (doc : Document).

Lemma cellWidth_nonzero (p : Fpdf) (v : Z) : v <> 0 -> cellWidth p v = v.
Proof.
  intros Hv. unfold cellWidth. destruct (Z.eqb_spec v 0); [contradiction|reflexivity].
Qed.

Lemma SetX_nonneg (p : Fpdf) (v : Z) : 0 <= v -> x (SetX p v) = v.
Proof.
  intros Hv. unfold SetX; cbn [x]. destruct (Z.leb_spec 0 v); [reflexivity|lia].
Qed.

Lemma color_eta (c : Color) : (fst (fst c), snd (fst c), snd c) = c.
Proof. destruct c as [[r g] b]. reflexivity. Qed.

(** The placements of a row, written out. *)
Lemma rowCells_explicit :
  usableColumns K -> 0 <= GetY (pdf doc) ->
  let p0 := pdf doc in
  let y0 := GetY p0 in
  let h := rowHeight K i doc in
  let described := (0 <? String.length (Description i))%nat in
  let st := if described then baseStyle K doc else (fontSel p0, textColor p0) in
  rowCells K i options doc
  = (mkPlacement Wrapped (ItemColNameOffset K) y0
       (ItemColUnitPriceOffset K - ItemColNameOffset K) 3
       (encodeString doc (Name i)) "" "" false (fontSel p0) (textColor p0)
     :: (if described
         then [mkPlacement Wrapped (lMargin p0) (y0 + 3 * nameLines K i doc + 1)
                 (ItemColUnitPriceOffset K - ItemColNameOffset K) 3
                 (encodeString doc (Description i)) "" "" false
                 (fst (smallStyle K doc)) (snd (smallStyle K doc))]
         else [])
     ++ [mkPlacement Boxed (ItemColUnitPriceOffset K) y0
           (ItemColQuantityOffset K - ItemColUnitPriceOffset K) h
           (encodeString doc (FormatMoneyDecimal (ac doc) (_unitCost i)))
           "0" "" false (fst st) (snd st);
         mkPlacement Boxed (ItemColQuantityOffset K) y0
           (ItemColTaxOffset K - ItemColQuantityOffset K) h
           (encodeString doc (decimal.String (_quantity i)))
           "0" "" false (fst st) (snd st);
         mkPlacement Boxed (ItemColTotalHTOffset K) y0
           (ItemColTaxOffset K - ItemColTotalHTOffset K) h
           (encodeString doc (Total i))
           "0" "" false (fst st) (snd st)])%list.
Proof.
  intros (HN & HU & HQ & HH & Hwn & Hwu & Hwq & Hwt) Hy.
  cbv zeta.
  unfold rowCells, appendColTo, nameBlock, rowHeight, nameLines,
    descriptionLines, baseStyle, smallStyle.
  cbv zeta. cbn [pdf with_pdf fst snd].
  rewrite drawn_SetY.
  repeat (rewrite drawn_CellFormat, drawn_SetX). rewrite drawn_SetY.
  rewrite !cellWidth_nonzero by assumption.
  unfold GetY in *.
  apply Z.leb_le in HN, HU, HQ, HH.
  pose proof (proj2 (Z.leb_le 0 (y (pdf doc))) Hy) as Hy0.
  set (n1 := Z.pos (lines (pdf doc) (fontSel (pdf doc))
                          (ItemColUnitPriceOffset K - ItemColNameOffset K)
                          (encodeString doc (Name i)))).
  set (n2 := Z.pos (lines (pdf doc)
                          (Font (DocOptions doc), "", SmallTextFontSize K)
                          (ItemColUnitPriceOffset K - ItemColNameOffset K)
                          (encodeString doc (Description i)))).
  assert (Hs : (0 <=? y (pdf doc) + 3 * n1 + 1) = true)
    by (apply Z.leb_le; unfold n1; lia).
  destruct (0 <? String.length (Description i))%nat.
  - cbn [drawn x y w h lMargin rMargin fontSel textColor lines
         SetX SetY SetFont SetTextColor MultiCell CellFormat
         Z.ltb Z.compare].
    rewrite !cellWidth_nonzero by assumption.
    cbn [drawn x y w h lMargin rMargin fontSel textColor lines SetX].
    fold n1 n2. rewrite HN, HU, HQ, HH, Hy0, !Hs, !color_eta.
    replace (y (pdf doc) + 3 * n1 + 1 + 3 * n2 - y (pdf doc))
      with (3 * n1 + 1 + 3 * n2) by lia.
    rewrite <- !app_assoc, skipn_app, skipn_all, Nat.sub_diag.
    reflexivity.
  - cbn [drawn x y w h lMargin rMargin fontSel textColor lines
         SetX SetY SetFont SetTextColor MultiCell CellFormat
         Z.ltb Z.compare].
    rewrite !cellWidth_nonzero by assumption.
    cbn [drawn x y w h lMargin rMargin fontSel textColor lines SetX].
    fold n1. rewrite HN, HU, HQ, HH, Hy0.
    replace (y (pdf doc) + 3 * n1 - y (pdf doc)) with (3 * n1) by lia.
    rewrite <- !app_assoc, skipn_app, skipn_all, Nat.sub_diag.
    reflexivity.
Qed.

(** The page object when the row is done. *)
Lemma appendColTo_pen :
  usableColumns K -> 0 <= GetY (pdf doc) ->
  let p0 := pdf doc in
  let p1 := pdf (appendColTo K i options doc) in
  y p1 = y p0 + rowHeight K i doc /\
  x p1 = lMargin p0 /\
  (fontSel p1, textColor p1)
  = (if (0 <? String.length (Description i))%nat
     then baseStyle K doc else (fontSel p0, textColor p0)) /\
  w p1 = w p0 /\ h p1 = h p0 /\ lMargin p1 = lMargin p0 /\
  rMargin p1 = rMargin p0 /\ lines p1 = lines p0.
Proof.
  intros (HN & HU & HQ & HH & Hwn & Hwu & Hwq & Hwt) Hy.
  cbv zeta.
  unfold appendColTo, nameBlock, rowHeight, nameLines, descriptionLines,
    baseStyle.
  cbv zeta. cbn [pdf with_pdf fst snd].
  unfold GetY in *.
  set (n1 := Z.pos (lines (pdf doc) (fontSel (pdf doc))
                          (ItemColUnitPriceOffset K - ItemColNameOffset K)
                          (encodeString doc (Name i)))).
  set (n2 := Z.pos (lines (pdf doc)
                          (Font (DocOptions doc), "", SmallTextFontSize K)
                          (ItemColUnitPriceOffset K - ItemColNameOffset K)
                          (encodeString doc (Description i)))).
  assert (Hs : (0 <=? y (pdf doc) + 3 * n1 + 1) = true)
    by (apply Z.leb_le; unfold n1; lia).
  destruct (0 <? String.length (Description i))%nat.
  - cbn [drawn x y w h lMargin rMargin fontSel textColor lines
         SetX SetY SetFont SetTextColor MultiCell CellFormat
         Z.ltb Z.compare].
    rewrite !cellWidth_nonzero by assumption.
    cbn [drawn x y w h lMargin rMargin fontSel textColor lines SetX].
    fold n1 n2. rewrite !Hs, !color_eta.
    replace (y (pdf doc) + (y (pdf doc) + 3 * n1 + 1 + 3 * n2 - y (pdf doc)))
      with (y (pdf doc) + (3 * n1 + 1 + 3 * n2)) by lia.
    assert (Hf : (0 <=? y (pdf doc) + (3 * n1 + 1 + 3 * n2)) = true)
      by (apply Z.leb_le; unfold n1, n2; lia).
    rewrite Hf. repeat split.
  - cbn [drawn x y w h lMargin rMargin fontSel textColor lines
         SetX SetY SetFont SetTextColor MultiCell CellFormat
         Z.ltb Z.compare].
    rewrite !cellWidth_nonzero by assumption.
    cbn [drawn x y w h lMargin rMargin fontSel textColor lines SetX].
    fold n1.
    replace (y (pdf doc) + (y (pdf doc) + 3 * n1 - y (pdf doc)))
      with (y (pdf doc) + 3 * n1) by lia.
    assert (Hf : (0 <=? y (pdf doc) + 3 * n1) = true)
      by (apply Z.leb_le; unfold n1; lia).
    rewrite Hf. repeat split.
Qed.




(** X14. The styles in which a row is drawn. The name is drawn in the style in
    force when the row starts and the description in the small grey style.
    With a description the three cells are drawn in the base style of the
    document, which is also the style left in force, whatever the style
    was before; without one the style in force is used and left as it
    is. *)
Theorem row_styles :
  usableColumns K -> 0 <= GetY (pdf doc) ->
  let p0 := pdf doc in
  let p1 := pdf (appendColTo K i options doc) in
  let described := (0 <? String.length (Description i))%nat in
  let st := if described then baseStyle K doc else (fontSel p0, textColor p0) in
  map style (boxed (rowCells K i options doc)) = [st; st; st] /\
  map style (wrapped (rowCells K i options doc))
  = ((fontSel p0, textColor p0)
     :: if described then [smallStyle K doc] else [])%list /\
  (fontSel p1, textColor p1) = st.
Proof.
  intros Hc Hy. cbv zeta.
  destruct (appendColTo_pen Hc Hy) as (_ & _ & Hst & _).
  rewrite (rowCells_explicit Hc Hy). cbv zeta.
  split; [|split; [|exact Hst]];
    destruct (0 <? String.length (Description i))%nat;
    cbn [boxed wrapped filter kind app map style font color fst snd];
    reflexivity.
Qed.



(** X16. A row only adds to the page: what was drawn before is kept as it is
    and in place, and the row comes after it. A row is one wrapped block
    for the name, one more when the description is not empty, then three
    single cells. *)
Theorem row_appends :
  drawn (pdf (appendColTo K i options doc))
  = (drawn (pdf doc) ++ rowCells K i options doc)%list /\
  map kind (rowCells K i options doc)
  = ((Wrapped :: if (0 <? String.length (Description i))%nat
                 then [Wrapped] else []) ++ [Boxed; Boxed; Boxed])%list.
Proof.
  unfold rowCells, appendColTo, nameBlock. cbv zeta. cbn [pdf with_pdf].
  rewrite drawn_SetY.
  repeat (rewrite drawn_CellFormat, drawn_SetX). rewrite drawn_SetY.
  destruct (0 <? String.length (Description i))%nat;
    cbn [drawn MultiCell SetX SetY SetFont SetTextColor];
    rewrite <- !app_assoc, skipn_app, skipn_all, Nat.sub_diag;
    split; reflexivity.
Qed.

(** X17. The revision that prints the texts draws the same row as the revision
    that prints the parsed decimals, text apart: same kinds, positions,
    sizes and styles, and the same pen when the row is done. Its three
    cells show the unit cost, the quantity and the total as the caller
    wrote them, prepared or not. *)
Theorem QuantityAsText_row :
  map (fun c => (kind c, box c, style c))
      (QuantityAsTextLayout.rowCells K i options doc)
  = map (fun c => (kind c, box c, style c)) (rowCells K i options doc) /\
  map text (boxed (QuantityAsTextLayout.rowCells K i options doc))
  = [ encodeString doc (UnitCost i); encodeString doc (Quantity i);
      encodeString doc (Total i) ] /\
  map text (wrapped (QuantityAsTextLayout.rowCells K i options doc))
  = map text (wrapped (rowCells K i options doc)) /\
  x (pdf (QuantityAsTextLayout.appendColTo K i options doc))
  = x (pdf (appendColTo K i options doc)) /\
  y (pdf (QuantityAsTextLayout.appendColTo K i options doc))
  = y (pdf (appendColTo K i options doc)).
Proof.
  unfold QuantityAsTextLayout.rowCells, QuantityAsTextLayout.appendColTo,
    rowCells, appendColTo.
  cbv zeta. cbn [pdf with_pdf].
  rewrite !drawn_SetY.
  repeat (rewrite !drawn_CellFormat, !drawn_SetX). rewrite !drawn_SetY.
  destruct (nameBlock_drawn K i doc (pdf doc)) as (l & Hl & Hb).
  rewrite Hl, <- !app_assoc, !skipn_app, !skipn_all, !Nat.sub_diag.
  cbn [skipn app].
  unfold boxed, wrapped in *. rewrite !filter_app, !map_app, Hb.
  split; [|split; [|split; [|split]]]; reflexivity.
Qed.

End RowGeometry.




Lemma row_styles_witness :
  map style (boxed (rowCells sampleConstants describedItem sampleOptions
                             sampleDocument))
  = [ (("Helvetica", "", 8), (35, 35, 35));
      (("Helvetica", "", 8), (35, 35, 35));
      (("Helvetica", "", 8), (35, 35, 35)) ] /\
  map style (wrapped (rowCells sampleConstants describedItem sampleOptions
                               sampleDocument))
  = [ (("Helvetica", "", 8), (35, 35, 35));
      (("Helvetica", "", 7), (82, 82, 82)) ].
Proof.
  destruct (row_styles sampleConstants describedItem sampleOptions
              sampleDocument ltac:(unfold usableColumns; simpl; lia) ltac:(simpl; lia))
    as (Hb & Hw & _).
  split; [exact Hb | exact Hw].
Defined.


